(** * useServerActionForm: the result-processing state machine

    A shallow embedding of [src/index.ts] (the hook [useServerActionForm]) and
    of the slice of the React runtime it is driven by: [useRef] cells,
    the [state]/[pending] pair of [useActionState], and [useEffect] bodies
    that run after a render whose dependencies changed.

    Calls into the collaborators (sonner's [toast], the router, the form
    handle, the caller's callbacks and the dispatched action) are recorded,
    in order, in an event log. *)

From Stdlib Require Import Bool List String Arith PeanoNat Lia.
Import ListNotations.
Local Open Scope string_scope.
Local Open Scope list_scope.

(** ** Values *)

(** [interface ServerActionState { success: boolean; message: string }] *)
Record ServerActionState : Type := mkState {
  success : bool;
  message : string
}.

(** A JavaScript object is known by its identity: [===] on two objects
    compares identities, never contents.  A [ref] is such an identity. *)
Definition ref : Type := nat.

(** [ServerActionState | undefined]: [None] is [undefined]. *)
Definition StateValue : Type := option ref.

(** [state === processedStateRef.current] *)
Definition strict_eq (a b : StateValue) : bool :=
  match a, b with
  | None, None => true
  | Some x, Some y => Nat.eqb x y
  | _, _ => false
  end.

(** [boolean | string], the type of [successToast] and [errorToast]. *)
Inductive ToastOption : Type :=
| ToastFlag (b : bool)
| ToastText (s : string).

(** Truthiness of a string: every string but the empty one. *)
Definition truthy_string (s : string) : bool :=
  match s with
  | EmptyString => false
  | String _ _ => true
  end.

(** [if (successToast)], [if (errorToast)] *)
Definition truthy_toast (t : ToastOption) : bool :=
  match t with
  | ToastFlag b => b
  | ToastText s => truthy_string s
  end.

(** [!state]: an object is always truthy, [undefined] never. *)
Definition truthy_state (s : StateValue) : bool :=
  match s with
  | None => false
  | Some _ => true
  end.

(** A caller-supplied callback, known by name. *)
Definition callback : Type := string.

Inductive JsError : Type :=
| TypeError (what : string).

Section Hook.

(** [TInput]: the type of the validated form data, [z.infer<TInput>]. *)
Context {TInput : Type}.

(** ** Options

    [UseServerActionFormOptions].  An optional property that the caller left
    out is [None]; the defaults of the destructuring pattern at the head of
    the hook are applied by the [opt_] functions below.  [schema] and
    [action] belong to the validator and to the runtime and are not part of
    the state machine. *)
Record Options : Type := mkOptions {
  defaultValues : TInput;
  initialState : StateValue;
  useLoaderRouter : option bool;
  resetOnSuccess : option bool;
  redirectUrl : option string;
  successToast : option ToastOption;
  errorToast : option ToastOption;
  onSuccess : option callback;
  onError : option callback
}.

Definition with_default {A : Type} (d : A) (v : option A) : A :=
  match v with
  | Some a => a
  | None => d
  end.

(** [useLoaderRouter = false] *)
Definition opt_useLoaderRouter (o : Options) : bool :=
  with_default false (useLoaderRouter o).

(** [resetOnSuccess = true] *)
Definition opt_resetOnSuccess (o : Options) : bool :=
  with_default true (resetOnSuccess o).

(** [successToast = true] *)
Definition opt_successToast (o : Options) : ToastOption :=
  with_default (ToastFlag true) (successToast o).

(** [errorToast = true] *)
Definition opt_errorToast (o : Options) : ToastOption :=
  with_default (ToastFlag true) (errorToast o).

(** ** Events: the calls that leave the hook *)
Inductive Event : Type :=
| ToastSuccess (msg : string)                (* toast.success(message) *)
| ToastError (msg : string)                  (* toast.error(message) *)
| RouterPush (loader : bool) (url : string)  (* router.push(redirectUrl) *)
| FormReset                                  (* form.reset() *)
| CallOnSuccess (cb : callback) (arg : StateValue)  (* onSuccess?.(state) *)
| CallOnError (cb : callback) (arg : StateValue)    (* onError?.(state) *)
| FormAction (data : TInput).                (* formAction(data) *)

(** ** The state of one hook instance *)
Record World : Type := mkWorld {
  heap : ref -> ServerActionState; (* the content of each object *)
  state : StateValue;             (* useActionState: state *)
  pending : bool;                 (* useActionState: pending *)
  processedStateRef : StateValue; (* processedStateRef.current *)
  isRedirectingRef : bool;        (* isRedirectingRef.current *)
  formValues : TInput;            (* the field values held by [form] *)
  log : list Event                (* calls made so far, oldest first *)
}.

Definition set_state (v : StateValue) (w : World) : World :=
  mkWorld (heap w) v (pending w) (processedStateRef w) (isRedirectingRef w)
          (formValues w) (log w).

Definition set_pending (b : bool) (w : World) : World :=
  mkWorld (heap w) (state w) b (processedStateRef w) (isRedirectingRef w)
          (formValues w) (log w).

Definition set_processedStateRef (v : StateValue) (w : World) : World :=
  mkWorld (heap w) (state w) (pending w) v (isRedirectingRef w)
          (formValues w) (log w).

Definition set_isRedirectingRef (b : bool) (w : World) : World :=
  mkWorld (heap w) (state w) (pending w) (processedStateRef w) b
          (formValues w) (log w).

Definition set_formValues (v : TInput) (w : World) : World :=
  mkWorld (heap w) (state w) (pending w) (processedStateRef w) (isRedirectingRef w)
          v (log w).

Definition record_event (e : Event) (w : World) : World :=
  mkWorld (heap w) (state w) (pending w) (processedStateRef w) (isRedirectingRef w)
          (formValues w) (log w ++ [e]).

(** ** Computations: state passing, with JavaScript exceptions *)
Inductive Outcome (A : Type) : Type :=
| Threw (e : JsError)
| Done (a : A) (w : World).

Arguments Threw {A} e.
Arguments Done {A} a w.

Definition Eff (A : Type) : Type := World -> Outcome A.

Definition ret {A : Type} (a : A) : Eff A := fun w => Done a w.

Definition bind {A B : Type} (m : Eff A) (k : A -> Eff B) : Eff B :=
  fun w =>
    match m w with
    | Threw e => Threw e
    | Done a w' => k a w'
    end.

Definition throw {A : Type} (e : JsError) : Eff A := fun _ => Threw e.

Definition gets {A : Type} (f : World -> A) : Eff A := fun w => Done (f w) w.

Definition modify (f : World -> World) : Eff unit := fun w => Done tt (f w).

Definition when (b : bool) (m : Eff unit) : Eff unit :=
  if b then m else ret tt.

Notation "x <- m ;; k" := (bind m (fun x => k))
  (at level 61, m at next level, right associativity).
Notation "m ;; k" := (bind m (fun _ => k))
  (at level 61, right associativity).

(** [state.success] and [state.message]: reading a property of [undefined]
    throws a TypeError. *)
Definition get_success (v : StateValue) : Eff bool :=
  match v with
  | None => throw (TypeError "reading 'success' of undefined")
  | Some r => gets (fun w => success (heap w r))
  end.

Definition get_message (v : StateValue) : Eff string :=
  match v with
  | None => throw (TypeError "reading 'message' of undefined")
  | Some r => gets (fun w => message (heap w r))
  end.

(** [if (redirectUrl)]: the test passes on a non-empty string only, and in
    the branch [redirectUrl] is that string. *)
Definition truthy_url (u : option string) : option string :=
  match u with
  | Some s => if truthy_string s then Some s else None
  | None => None
  end.

(** ** The hook *)

Section Effects.

Variable o : Options.

(** What a call into a collaborator sets off, synchronously, before it
    returns to the effect.  Under React nothing of the hook runs at that
    point: [reenter] is [ret tt] (see [useEffect_reconcile]).  It is kept as
    a parameter to state what the order "mark first, act afterwards" buys. *)
Variable reenter : Eff unit.

Definition call_out (e : Event) : Eff unit :=
  modify (record_event e) ;; reenter.

(** [toast.success(message)] *)
Definition toast_success (msg : string) : Eff unit :=
  call_out (ToastSuccess msg).

(** [toast.error(message)] *)
Definition toast_error (msg : string) : Eff unit :=
  call_out (ToastError msg).

(** [router.push(url)], on the router picked by [useLoaderRouter]. *)
Definition router_push (url : string) : Eff unit :=
  call_out (RouterPush (opt_useLoaderRouter o) url).

(** [form.reset()]: react-hook-form puts the fields back to the
    [defaultValues] the form was created with. *)
Definition form_reset : Eff unit :=
  modify (set_formValues (defaultValues o)) ;;
  call_out FormReset.

(** [cb?.(arg)]: nothing happens when [cb] is [undefined]. *)
Definition optional_call (mk : callback -> StateValue -> Event)
           (cb : option callback) (arg : StateValue) : Eff unit :=
  match cb with
  | Some f => call_out (mk f arg)
  | None => ret tt
  end.

(** The guard of the first effect:
    [!state || pending || state === processedStateRef.current
     || isRedirectingRef.current]. *)
Definition guard (w : World) : bool :=
  negb (truthy_state (state w))
  || pending w
  || strict_eq (state w) (processedStateRef w)
  || isRedirectingRef w.

(** The body of the first [useEffect] (index.ts, lines 131-177). *)
Definition reconcile : Eff unit :=
  blocked <- gets guard ;;
  if blocked then ret tt
  else
    st <- gets state ;;
    (* processedStateRef.current = state *)
    modify (set_processedStateRef st) ;;
    ok <- get_success st ;;
    if ok then
      when (truthy_toast (opt_successToast o))
        (msg <- match opt_successToast o with
                | ToastText s => ret s
                | ToastFlag _ => get_message st
                end ;;
         toast_success msg) ;;
      match truthy_url (redirectUrl o) with
      | Some url =>
          modify (set_isRedirectingRef true) ;;
          router_push url
      | None =>
          when (opt_resetOnSuccess o) form_reset ;;
          optional_call CallOnSuccess (onSuccess o) st
      end
    else
      when (truthy_toast (opt_errorToast o))
        (msg <- match opt_errorToast o with
                | ToastText s => ret s
                | ToastFlag _ => get_message st
                end ;;
         toast_error msg) ;;
      optional_call CallOnError (onError o) st.

End Effects.

(** The first effect as React runs it. *)
Definition useEffect_reconcile (o : Options) : Eff unit :=
  reconcile o (ret tt).

(** The first effect when every call into a collaborator re-runs the effect
    before it returns, to depth [n]. *)
Fixpoint reconcile_reentrant (o : Options) (n : nat) : Eff unit :=
  match n with
  | O => reconcile o (ret tt)
  | S n' => reconcile o (reconcile_reentrant o n')
  end.

(** The body of the second [useEffect] (lines 195-200). *)
Definition useEffect_pending : Eff unit :=
  p <- gets pending ;;
  when p
    (modify (set_processedStateRef None) ;;
     modify (set_isRedirectingRef false)).

(** [onSubmit] (lines 123-129). *)
Definition onSubmit (data : TInput) : Eff unit :=
  modify (set_isRedirectingRef false) ;;
  modify (record_event (FormAction data)).

(** ** The runtime around the hook

    React runs the effects of a render after it, in the order they are
    declared, and only those with a dependency that changed ([Object.is]);
    on the first render all of them.  Of the dependencies of the first
    effect only [state] and [pending] ever change; the second depends on
    [pending] alone. *)
Definition run_effects (o : Options) (state_changed pending_changed : bool)
  : Eff unit :=
  when (state_changed || pending_changed) (useEffect_reconcile o) ;;
  when pending_changed useEffect_pending.

(** The hook before its first render: [useRef(undefined)], [useRef(false)],
    [useActionState(action, initialState)], [useForm({defaultValues})]. *)
Definition initial_world (h : ref -> ServerActionState) (o : Options)
  : World :=
  mkWorld h (initialState o) false None false (defaultValues o) [].

(** First render. *)
Definition mount (h : ref -> ServerActionState) (o : Options)
  : Outcome unit :=
  run_effects o true true (initial_world h o).

(** A later render, where [useActionState] hands out [st] and [p]. *)
Definition render (o : Options) (st : StateValue) (p : bool) : Eff unit :=
  old_st <- gets state ;;
  old_p <- gets pending ;;
  modify (set_state st) ;;
  modify (set_pending p) ;;
  run_effects o (negb (strict_eq old_st st)) (negb (Bool.eqb old_p p)).

(** The dispatched action is in flight: [pending] turns true, [state] stays. *)
Definition action_started (o : Options) : Eff unit :=
  st <- gets state ;;
  render o st true.

(** The action's promise resolved to [r]. *)
Definition action_resolved (o : Options) (r : StateValue) : Eff unit :=
  render o r false.

(** One whole submission that resolves to [r]. *)
Definition submission (o : Options) (data : TInput) (r : StateValue)
  : Eff unit :=
  onSubmit data ;;
  action_started o ;;
  action_resolved o r.

(** ** Reading the log *)

Definition is_toast_success (e : Event) : bool :=
  match e with
  | ToastSuccess _ => true
  | _ => false
  end.

Definition is_toast_error (e : Event) : bool :=
  match e with
  | ToastError _ => true
  | _ => false
  end.

Definition is_toast (e : Event) : bool :=
  is_toast_success e || is_toast_error e.

Definition is_redirect (e : Event) : bool :=
  match e with
  | RouterPush _ _ => true
  | _ => false
  end.

Definition is_reset (e : Event) : bool :=
  match e with
  | FormReset => true
  | _ => false
  end.

Definition is_callback (e : Event) : bool :=
  match e with
  | CallOnSuccess _ _ | CallOnError _ _ => true
  | _ => false
  end.

Definition count (p : Event -> bool) (l : list Event) : nat :=
  List.length (filter p l).

(** The toast a result with content [s] gets under the option [t]: none
    when [t] is falsy, else one, with [t] itself when it is a string and
    [s.message] when it is [true]. *)
Definition toast_events (mk : string -> Event) (t : ToastOption)
           (s : ServerActionState) : list Event :=
  if truthy_toast t then
    [mk match t with
        | ToastText text => text
        | ToastFlag _ => message s
        end]
  else [].

(** The call an optional callback gets: none when it was not supplied. *)
Definition callback_events (mk : callback -> StateValue -> Event)
           (cb : option callback) (arg : StateValue) : list Event :=
  match cb with
  | Some f => [mk f arg]
  | None => []
  end.

(** The calls step 3 of the reconciliation routine asks for, as the
    specification words it, for the result [r] with content [s]:
    success path (a) notification, (b) redirect and stop, (c) reset and
    success callback; failure path (a) notification, (b) failure callback. *)
Definition spec_reaction (o : Options) (s : ServerActionState) (r : ref)
  : list Event :=
  if success s then
    toast_events ToastSuccess (opt_successToast o) s ++
    match truthy_url (redirectUrl o) with
    | Some url => [RouterPush (opt_useLoaderRouter o) url]
    | None =>
        (if opt_resetOnSuccess o then [FormReset] else []) ++
        callback_events CallOnSuccess (onSuccess o) (Some r)
    end
  else
    toast_events ToastError (opt_errorToast o) s ++
    callback_events CallOnError (onError o) (Some r).

(** The same options with one property replaced. *)
Definition set_redirectUrl (u : option string) (o : Options) : Options :=
  mkOptions (defaultValues o) (initialState o) (useLoaderRouter o)
            (resetOnSuccess o) u (successToast o) (errorToast o)
            (onSuccess o) (onError o).

Definition set_successToast (t : option ToastOption) (o : Options)
  : Options :=
  mkOptions (defaultValues o) (initialState o) (useLoaderRouter o)
            (resetOnSuccess o) (redirectUrl o) t (errorToast o)
            (onSuccess o) (onError o).

Definition set_errorToast (t : option ToastOption) (o : Options)
  : Options :=
  mkOptions (defaultValues o) (initialState o) (useLoaderRouter o)
            (resetOnSuccess o) (redirectUrl o) (successToast o) t
            (onSuccess o) (onError o).

Definition set_useLoaderRouter (b : option bool) (o : Options) : Options :=
  mkOptions (defaultValues o) (initialState o) b
            (resetOnSuccess o) (redirectUrl o) (successToast o)
            (errorToast o) (onSuccess o) (onError o).

(** ** Longer runs *)

(** Submissions one after the other, each awaited before the next. *)
Fixpoint submissions (o : Options) (l : list (TInput * StateValue))
  : Eff unit :=
  match l with
  | [] => ret tt
  | (data, r) :: rest => submission o data r ;; submissions o rest
  end.

(** What the collaborators are to see of such a sequence: per submission,
    the dispatch, then the calls for its result, none when the action
    resolved to [undefined]. *)
Fixpoint spec_history (o : Options) (h : ref -> ServerActionState)
         (l : list (TInput * StateValue)) : list Event :=
  match l with
  | [] => []
  | (data, st) :: rest =>
      FormAction data ::
      match st with
      | Some r => spec_reaction o (h r) r
      | None => []
      end ++ spec_history o h rest
  end.

(** The first effect run [n] times in a row: a dependency that is not
    stable (an [onSuccess] written inline, say) re-runs it at every render. *)
Fixpoint rerun (o : Options) (n : nat) : Eff unit :=
  match n with
  | O => ret tt
  | S n' => useEffect_reconcile o ;; rerun o n'
  end.

(** What can happen to a mounted hook. *)
Inductive Action : Type :=
| DoSubmit (data : TInput)               (* the form calls [onSubmit] *)
| DoRender (st : StateValue) (p : bool)  (* [useActionState] hands out new values *)
| DoRerun.                               (* the first effect runs again *)

Definition perform (o : Options) (a : Action) : Eff unit :=
  match a with
  | DoSubmit data => onSubmit data
  | DoRender st p => render o st p
  | DoRerun => useEffect_reconcile o
  end.

Fixpoint perform_all (o : Options) (l : list Action) : Eff unit :=
  match l with
  | [] => ret tt
  | a :: rest => perform o a ;; perform_all o rest
  end.

(** An action that starts no submission: a re-run, or a render with
    [pending] false. *)
Definition starts_nothing (a : Action) : bool :=
  match a with
  | DoSubmit _ => false
  | DoRender _ p => negb p
  | DoRerun => true
  end.

(** More ways to read the log. *)

(** The calls of the success path. *)
Definition is_success_call (e : Event) : bool :=
  match e with
  | ToastSuccess _ | RouterPush _ _ | FormReset | CallOnSuccess _ _ => true
  | _ => false
  end.

(** The calls of the failure path. *)
Definition is_failure_call (e : Event) : bool :=
  match e with
  | ToastError _ | CallOnError _ _ => true
  | _ => false
  end.

Definition not_toast (e : Event) : bool := negb (is_toast e).

(** While a submission is in flight no result is marked and no redirect
    is on record. *)
Definition cells_clear_while_pending (w : World) : Prop :=
  pending w = true ->
  processedStateRef w = None /\ isRedirectingRef w = false.

(** [isRedirectingRef] is set only for a marked, successful result, with a
    redirect target, for which [router.push] was called. *)
Definition redirect_flag_justified (o : Options) (w : World) : Prop :=
  isRedirectingRef w = true ->
  exists r url,
    processedStateRef w = Some r /\
    success (heap w r) = true /\
    truthy_url (redirectUrl o) = Some url /\
    In (RouterPush (opt_useLoaderRouter o) url) (log w).

(** An event with the choice of router forgotten. *)
Definition any_router (e : Event) : Event :=
  match e with
  | RouterPush _ url => RouterPush false url
  | _ => e
  end.

End Hook.

Arguments Threw {TInput A} e.
Arguments Done {TInput A} a w.

(** ** A small form, to run the hook on *)

Module Sample.

(** Field values of a form with one field, [title]. *)
Definition Fields : Type := list (string * string).

(** Three results: 1 and 3 are equal in content and distinct in identity. *)
Definition objects (r : ref) : ServerActionState :=
  match r with
  | 1 => mkState true "Created"
  | 2 => mkState false "Duplicate"
  | 3 => mkState true "Created"
  | _ => mkState false "Unknown"
  end.

Definition blank : Fields := [("title", "")].

Definition typed : Fields := [("title", "Buy milk")].

(** Every optional property left out, but for the two callbacks. *)
Definition plain : @Options Fields :=
  mkOptions blank None None None None None None
            (Some "onSuccess") (Some "onError").

(** [redirectUrl: "/list"] *)
Definition redirecting : @Options Fields :=
  set_redirectUrl (Some "/list") plain.

(** [successToast: "", errorToast: "", redirectUrl: ""] *)
Definition empty_strings : @Options Fields :=
  set_redirectUrl (Some "")
    (set_successToast (Some (ToastText ""))
       (set_errorToast (Some (ToastText "")) plain)).

(** [successToast: "Saved", errorToast: "Failed"] *)
Definition literal : @Options Fields :=
  set_successToast (Some (ToastText "Saved"))
    (set_errorToast (Some (ToastText "Failed")) plain).

(** [initialState] is result 1. *)
Definition seeded : @Options Fields :=
  mkOptions blank (Some 1) None None None None None
            (Some "onSuccess") (Some "onError").

(** The action has just resolved to [r]; the user had typed a title. *)
Definition arrived (r : ref) : @World Fields :=
  mkWorld objects (Some r) false None false typed [].

(** Result 1 was processed under [plain]. *)
Definition settled : @World Fields :=
  mkWorld objects (Some 1) false (Some 1) false blank
          [ToastSuccess "Created"; FormReset;
           CallOnSuccess "onSuccess" (Some 1)].

(** A submission is in flight while result 1 is still the current one. *)
Definition in_flight : @World Fields :=
  mkWorld objects (Some 1) true None false typed [].

(** [resetOnSuccess: false] *)
Definition keeping : @Options Fields :=
  mkOptions blank None None (Some false) None None None
            (Some "onSuccess") (Some "onError").

(** Result 1 was processed under [redirecting]: the push is under way. *)
Definition leaving : @World Fields :=
  mkWorld objects (Some 1) false (Some 1) true typed
          [ToastSuccess "Created"; RouterPush false "/list"].

End Sample.

(** * Properties *)

Section Properties.

Context {TInput : Type}.

Implicit Types (o : @Options TInput) (w : @World TInput) (r : ref).

(** ** The guard *)

Lemma strict_eq_refl (v : StateValue) : strict_eq v v = true.
Proof. destruct v as [x|]; simpl; [apply Nat.eqb_refl | reflexivity]. Qed.

Lemma strict_eq_true (a b : StateValue) : strict_eq a b = true <-> a = b.
Proof.
  destruct a as [x|], b as [y|]; simpl; split; intro H;
    try reflexivity; try discriminate.
  - apply Nat.eqb_eq in H. now subst.
  - injection H as ->. apply Nat.eqb_refl.
Qed.

Lemma strict_eq_false (a b : StateValue) : strict_eq a b = false <-> a <> b.
Proof.
  split.
  - intros H E. apply strict_eq_true in E. congruence.
  - intro N. destruct (strict_eq a b) eqn:E; [|reflexivity].
    apply strict_eq_true in E. contradiction.
Qed.

(** The guard lets a world through exactly when it holds a result, nothing
    is pending, the result is not the marked one and no redirect is on. *)
Lemma guard_false w :
  guard w = false <->
  exists r, state w = Some r /\ pending w = false /\
            processedStateRef w <> Some r /\ isRedirectingRef w = false.
Proof.
  unfold guard. split.
  - intro H.
    apply orb_false_elim in H as [H Hred].
    apply orb_false_elim in H as [H Heq].
    apply orb_false_elim in H as [Hst Hp].
    destruct (state w) as [r|] eqn:Es; [|discriminate].
    exists r. repeat split; auto.
    apply strict_eq_false in Heq. congruence.
  - intros (r & Es & Hp & Hn & Hred).
    rewrite Es, Hp, Hred. simpl.
    assert (E : strict_eq (Some r) (processedStateRef w) = false)
      by (apply strict_eq_false; congruence).
    simpl in E. rewrite E. reflexivity.
Qed.

(** A blocked run is the identity, whatever the collaborators would do. *)
Lemma reconcile_blocked o (re : Eff unit) w :
  guard w = true -> reconcile o re w = Done tt w.
Proof.
  intro G. unfold reconcile, bind, gets. rewrite G. reflexivity.
Qed.

(** A world whose result is the marked one is blocked. *)
Lemma guard_marked w : processedStateRef w = state w -> guard w = true.
Proof.
  intro H. unfold guard. rewrite H, strict_eq_refl.
  rewrite orb_true_r. reflexivity.
Qed.

(** ** What an unblocked run does, path by path *)

Ltac unfold_hook :=
  unfold useEffect_reconcile, reconcile, toast_success, toast_error,
    router_push, form_reset, optional_call, call_out, get_success,
    get_message, when, bind, gets, modify, ret, throw.

Ltac split_options :=
  unfold toast_events, callback_events;
  repeat match goal with
         | |- context [opt_successToast ?o] =>
             destruct (opt_successToast o) as [[|]|[|? ?]]
         | |- context [opt_errorToast ?o] =>
             destruct (opt_errorToast o) as [[|]|[|? ?]]
         | |- context [onSuccess ?o] => destruct (onSuccess o)
         | |- context [onError ?o] => destruct (onError o)
         | |- context [opt_resetOnSuccess ?o] =>
             destruct (opt_resetOnSuccess o)
         end;
  unfold record_event, set_isRedirectingRef, set_processedStateRef,
    set_formValues;
  cbn; rewrite <- ?app_assoc; cbn;
  repeat match goal with
         | H : state ?w = Some _ |- context [state ?w] => rewrite H
         end.

Lemma run_redirect o w r url :
  state w = Some r -> guard w = false -> success (heap w r) = true ->
  truthy_url (redirectUrl o) = Some url ->
  useEffect_reconcile o w =
  Done tt
    (mkWorld (heap w) (state w) (pending w) (Some r) true (formValues w)
       (log w ++ toast_events ToastSuccess (opt_successToast o) (heap w r)
              ++ [RouterPush (opt_useLoaderRouter o) url])).
Proof.
  intros Hs Hg Hok Hu.
  unfold_hook. rewrite Hg, Hs, Hu. cbn. rewrite Hok.
  split_options; reflexivity.
Qed.

Lemma run_success o w r :
  state w = Some r -> guard w = false -> success (heap w r) = true ->
  truthy_url (redirectUrl o) = None ->
  useEffect_reconcile o w =
  Done tt
    (mkWorld (heap w) (state w) (pending w) (Some r) (isRedirectingRef w)
       (if opt_resetOnSuccess o then defaultValues o else formValues w)
       (log w ++ toast_events ToastSuccess (opt_successToast o) (heap w r)
              ++ (if opt_resetOnSuccess o then [FormReset] else [])
              ++ callback_events CallOnSuccess (onSuccess o) (Some r))).
Proof.
  intros Hs Hg Hok Hu.
  unfold_hook. rewrite Hg, Hs, Hu. cbn. rewrite Hok.
  split_options; rewrite ?app_nil_r; reflexivity.
Qed.

Lemma run_failure o w r :
  state w = Some r -> guard w = false -> success (heap w r) = false ->
  useEffect_reconcile o w =
  Done tt
    (mkWorld (heap w) (state w) (pending w) (Some r) (isRedirectingRef w)
       (formValues w)
       (log w ++ toast_events ToastError (opt_errorToast o) (heap w r)
              ++ callback_events CallOnError (onError o) (Some r))).
Proof.
  intros Hs Hg Hok.
  unfold_hook. rewrite Hg, Hs. cbn. rewrite Hok.
  split_options; rewrite ?app_nil_r; reflexivity.
Qed.

(** An unblocked run marks the result and makes the calls of
    [spec_reaction], in that order, and touches neither the store nor what
    [useActionState] handed out. *)
Lemma run_eligible o w r :
  state w = Some r -> guard w = false ->
  exists w1,
    useEffect_reconcile o w = Done tt w1 /\
    log w1 = log w ++ spec_reaction o (heap w r) r /\
    heap w1 = heap w /\ state w1 = state w /\ pending w1 = pending w /\
    processedStateRef w1 = Some r.
Proof.
  intros Hs Hg. unfold spec_reaction.
  destruct (success (heap w r)) eqn:Hok.
  - destruct (truthy_url (redirectUrl o)) as [url|] eqn:Hu.
    + eexists. split; [apply (run_redirect o w r url); assumption|].
      cbn. auto.
    + eexists. split; [apply (run_success o w r); assumption|].
      cbn. auto.
  - eexists. split; [apply (run_failure o w r); assumption|].
    cbn. auto.
Qed.

(** Each kind of call is made at most once for a result. *)
Lemma spec_reaction_counts o (s : ServerActionState) r :
  count is_toast (spec_reaction o s r) <= 1 /\
  count is_redirect (spec_reaction o s r) <= 1 /\
  count is_reset (spec_reaction o s r) <= 1 /\
  count is_callback (spec_reaction o s r) <= 1.
Proof.
  unfold spec_reaction, toast_events, callback_events, count.
  destruct (success s);
    destruct (truthy_toast (opt_successToast o));
    destruct (truthy_toast (opt_errorToast o));
    destruct (truthy_url (redirectUrl o));
    destruct (opt_resetOnSuccess o);
    destruct (onSuccess o); destruct (onError o); cbn; lia.
Qed.

(** Every run ends, without an exception, in a blocked world. *)
Lemma reconcile_settles o w :
  exists w1 evs,
    useEffect_reconcile o w = Done tt w1 /\
    log w1 = log w ++ evs /\
    guard w1 = true /\
    heap w1 = heap w /\ state w1 = state w /\ pending w1 = pending w /\
    (count is_toast evs <= 1 /\ count is_redirect evs <= 1 /\
     count is_reset evs <= 1 /\ count is_callback evs <= 1).
Proof.
  destruct (guard w) eqn:Hg.
  - exists w, []. unfold useEffect_reconcile.
    rewrite reconcile_blocked by assumption.
    rewrite app_nil_r. cbn. repeat split; auto.
  - destruct (proj1 (guard_false w) Hg) as (r & Hs & _).
    destruct (run_eligible o w r Hs Hg) as (w1 & Hrun & Hlog & Hh & Hst & Hp & Hm).
    exists w1, (spec_reaction o (heap w r) r).
    repeat split; auto; try apply spec_reaction_counts.
    apply guard_marked. congruence.
Qed.

(** ** Calls that come back into the effect *)

(** A collaborator that re-runs blocked code changes nothing of a run. *)
Lemma reconcile_reenter o (re : Eff unit) w :
  (forall w', guard w' = true -> re w' = Done tt w') ->
  reconcile o re w = useEffect_reconcile o w.
Proof.
  intros Hre. destruct (guard w) eqn:Hg.
  - unfold useEffect_reconcile. now rewrite !reconcile_blocked.
  - destruct (proj1 (guard_false w) Hg) as (r & Hs & _).
    unfold_hook. rewrite Hg, Hs. cbn.
    destruct (success (heap w r));
      destruct (opt_successToast o) as [[|]|[|? ?]];
      destruct (opt_errorToast o) as [[|]|[|? ?]];
      destruct (truthy_url (redirectUrl o));
      destruct (opt_resetOnSuccess o);
      destruct (onSuccess o); destruct (onError o); cbn;
      repeat (rewrite Hre by (apply guard_marked; cbn; congruence); cbn);
      reflexivity.
Qed.

Lemma reentrant_blocked o (n : nat) w :
  guard w = true -> reconcile_reentrant o n w = Done tt w.
Proof.
  intro Hg. destruct n; cbn; apply reconcile_blocked; assumption.
Qed.

Lemma reentrant_same o (n : nat) w :
  reconcile_reentrant o n w = useEffect_reconcile o w.
Proof.
  destruct n as [|n]; cbn; [reflexivity|].
  apply reconcile_reenter. intros w' Hg.
  apply reentrant_blocked. assumption.
Qed.

(** ** The runtime *)

Lemma useEffect_pending_true w :
  pending w = true ->
  useEffect_pending w =
  Done tt (set_isRedirectingRef false (set_processedStateRef None w)).
Proof.
  intro Hp. unfold useEffect_pending, when, bind, gets, modify.
  rewrite Hp. reflexivity.
Qed.

Lemma useEffect_pending_false w :
  pending w = false -> useEffect_pending w = Done tt w.
Proof.
  intro Hp. unfold useEffect_pending, when, bind, gets, ret.
  rewrite Hp. reflexivity.
Qed.

(** No entry point of the hook throws. *)
Lemma useEffect_pending_total w :
  exists w1, useEffect_pending w = Done tt w1.
Proof.
  destruct (pending w) eqn:Hp.
  - rewrite useEffect_pending_true by assumption. eauto.
  - rewrite useEffect_pending_false by assumption. eauto.
Qed.

Lemma run_effects_total o (a b : bool) w :
  exists w1, run_effects o a b w = Done tt w1.
Proof.
  unfold run_effects, when, bind.
  destruct (a || b).
  - destruct (reconcile_settles o w) as (w1 & evs & Hrun & _).
    rewrite Hrun. destruct b; [apply useEffect_pending_total|].
    unfold ret. eauto.
  - unfold ret. destruct b; [apply useEffect_pending_total|]. eauto.
Qed.

Lemma render_total o (st : StateValue) (p : bool) w :
  exists w1, render o st p w = Done tt w1.
Proof.
  unfold render, bind, gets, modify. apply run_effects_total.
Qed.

Lemma onSubmit_total (data : TInput) w :
  exists w1, onSubmit data w = Done tt w1.
Proof. unfold onSubmit, bind, modify. eauto. Qed.

Lemma mount_total (h : ref -> ServerActionState) o :
  exists w1, mount h o = Done tt w1.
Proof. unfold mount. apply run_effects_total. Qed.

Lemma run_effects_pending_changed o (a : bool) w :
  run_effects o a true w =
  bind (useEffect_reconcile o) (fun _ => useEffect_pending) w.
Proof.
  unfold run_effects, when. rewrite orb_true_r. reflexivity.
Qed.

(** A render that turns [pending] on clears both cells and calls nothing. *)
Lemma render_started o (st : StateValue) w :
  pending w = false ->
  render o st true w =
  Done tt (mkWorld (heap w) st true None false (formValues w) (log w)).
Proof.
  intro Hp. unfold render, bind, gets, modify. rewrite Hp.
  change (negb (Bool.eqb false true)) with true.
  rewrite run_effects_pending_changed. unfold bind, useEffect_reconcile.
  rewrite reconcile_blocked.
  - rewrite useEffect_pending_true by reflexivity. reflexivity.
  - unfold guard. cbn. rewrite orb_true_r. reflexivity.
Qed.

(** A render that turns [pending] off runs the first effect, and only it. *)
Lemma render_resolved o (st : StateValue) w :
  pending w = true ->
  render o st false w =
  useEffect_reconcile o
    (mkWorld (heap w) st false (processedStateRef w) (isRedirectingRef w)
             (formValues w) (log w)).
Proof.
  intro Hp. unfold render, bind, gets, modify. rewrite Hp.
  change (negb (Bool.eqb true false)) with true.
  rewrite run_effects_pending_changed. unfold bind.
  change (set_pending false (set_state st w))
    with (mkWorld (heap w) st false (processedStateRef w)
            (isRedirectingRef w) (formValues w) (log w)).
  destruct (reconcile_settles o
              (mkWorld (heap w) st false (processedStateRef w)
                 (isRedirectingRef w) (formValues w) (log w)))
    as (w1 & evs & Hrun & _ & _ & _ & _ & Hp1 & _).
  rewrite Hrun. apply useEffect_pending_false. exact Hp1.
Qed.

(** A whole submission from rest comes down to one run of the first effect
    on the new result, with both cells cleared. *)
Lemma submission_run o (data : TInput) (st : StateValue) w :
  pending w = false ->
  submission o data st w =
  useEffect_reconcile o
    (mkWorld (heap w) st false None false (formValues w)
             (log w ++ [FormAction data])).
Proof.
  intro Hp. unfold submission, onSubmit, action_started, action_resolved.
  unfold bind at 1 2 3. unfold modify at 1 2. unfold bind at 1. unfold gets at 1.
  rewrite render_started by (cbn; assumption).
  rewrite render_resolved by reflexivity.
  reflexivity.
Qed.

(** The first render runs the first effect on the seed, and only it. *)
Lemma mount_run (h : ref -> ServerActionState) o :
  mount h o = useEffect_reconcile o (initial_world h o).
Proof.
  unfold mount. rewrite run_effects_pending_changed. unfold bind.
  destruct (reconcile_settles o (initial_world h o))
    as (w1 & evs & Hrun & _ & _ & _ & _ & Hp1 & _).
  rewrite Hrun. apply useEffect_pending_false. exact Hp1.
Qed.

(** ** Small facts about options and events *)

Lemma truthy_url_some o (U : string) :
  redirectUrl o = Some U -> U <> "" -> truthy_url (redirectUrl o) = Some U.
Proof.
  intros -> HU. destruct U; [contradiction|reflexivity].
Qed.

Lemma truthy_url_none o :
  redirectUrl o = None \/ redirectUrl o = Some "" ->
  truthy_url (redirectUrl o) = None.
Proof. intros [-> | ->]; reflexivity. Qed.

Lemma toast_events_success_toasts (t : ToastOption) (s : ServerActionState) :
  forallb (@is_toast TInput) (toast_events ToastSuccess t s) = true.
Proof. unfold toast_events. destruct (truthy_toast t); reflexivity. Qed.

Lemma toast_events_error_toasts (t : ToastOption) (s : ServerActionState) :
  forallb (@is_toast TInput) (toast_events ToastError t s) = true.
Proof. unfold toast_events. destruct (truthy_toast t); reflexivity. Qed.

Lemma count_app (p : @Event TInput -> bool) (l1 l2 : list Event) :
  count p (l1 ++ l2) = count p l1 + count p l2.
Proof. unfold count. rewrite filter_app, length_app. reflexivity. Qed.

(** A list of toasts holds no redirect, no reset and no callback. *)
Lemma toasts_only (l : list (@Event TInput)) :
  forallb is_toast l = true ->
  count is_redirect l = 0 /\ count is_reset l = 0 /\ count is_callback l = 0.
Proof.
  unfold count. induction l as [|e l IH]; cbn; [auto|].
  intro H. apply andb_true_iff in H as [He Hl].
  destruct (IH Hl) as (H1 & H2 & H3).
  destruct e; cbn in *; try discriminate; auto.
Qed.

(** * The claims *)

(** C5.  The guard: when no result is present, or a submission is pending,
    or the current result is the very object already marked as processed,
    or a redirect is under way, the reconciliation effect returns at once:
    it makes no call and leaves every cell, the form and the log as they
    were.  In particular nothing runs while [pending] is true, whatever the
    current result. *)
Theorem guard_blocks_everything o w :
  state w = None \/ pending w = true \/
  state w = processedStateRef w \/ isRedirectingRef w = true ->
  useEffect_reconcile o w = Done tt w.
Proof.
  intro H. apply reconcile_blocked. unfold guard.
  destruct H as [H | [H | [H | H]]].
  - rewrite H. reflexivity.
  - rewrite H. apply orb_true_iff. left. apply orb_true_iff. left.
    apply orb_true_r.
  - apply guard_marked. symmetry. exact H.
  - rewrite H. apply orb_true_r.
Qed.

(** C1.  Idempotence: for a result [r] and [pending = false], the effect run
    twice in a row ends in the very world one run ends in, so the second
    run adds no notification, redirect, reset or callback; the one run makes
    each kind of call at most once; and a run that gets through the guard
    leaves [r] marked.  Because the mark is set before the first call, the
    same holds when every call into a collaborator re-runs the effect before
    it returns, to any depth [n]. *)
Theorem reconcile_idempotent o w r :
  state w = Some r -> pending w = false ->
  exists w1 evs,
    useEffect_reconcile o w = Done tt w1 /\
    bind (useEffect_reconcile o) (fun _ => useEffect_reconcile o) w
      = Done tt w1 /\
    log w1 = log w ++ evs /\
    count is_toast evs <= 1 /\ count is_redirect evs <= 1 /\
    count is_reset evs <= 1 /\ count is_callback evs <= 1 /\
    (guard w = false ->
     processedStateRef w1 = Some r /\ evs = spec_reaction o (heap w r) r) /\
    (forall n, reconcile_reentrant o n w = Done tt w1).
Proof.
  intros Hs Hp.
  destruct (guard w) eqn:Hg.
  - exists w, []. unfold bind, useEffect_reconcile.
    rewrite !reconcile_blocked by assumption.
    rewrite app_nil_r. cbn. repeat split; auto; try discriminate.
    intro n. apply reentrant_blocked. assumption.
  - destruct (run_eligible o w r Hs Hg)
      as (w1 & Hrun & Hlog & Hh & Hst & Hp1 & Hm).
    exists w1, (spec_reaction o (heap w r) r).
    destruct (spec_reaction_counts o (heap w r) r) as (C1 & C2 & C3 & C4).
    assert (Hg1 : guard w1 = true) by (apply guard_marked; congruence).
    unfold bind. rewrite Hrun.
    repeat split; auto.
    + unfold useEffect_reconcile. apply reconcile_blocked. assumption.
    + intro n. rewrite reentrant_same. assumption.
Qed.

(** C2.  A successful result, no redirect target (the option left out, or
    empty) and [resetOnSuccess] true (given, or left to its default): the
    effect puts the form back to its default values and then calls
    [onSuccess], once, with that very result.  Before the reset come only
    toasts. *)
Theorem success_resets_then_calls_back o w r :
  state w = Some r -> guard w = false ->
  success (heap w r) = true ->
  redirectUrl o = None \/ redirectUrl o = Some "" ->
  opt_resetOnSuccess o = true ->
  exists w1 toasts,
    useEffect_reconcile o w = Done tt w1 /\
    formValues w1 = defaultValues o /\
    forallb is_toast toasts = true /\
    log w1 = log w ++ toasts ++ [FormReset]
                   ++ callback_events CallOnSuccess (onSuccess o) (Some r) /\
    (forall cb, onSuccess o = Some cb ->
       log w1 = log w ++ toasts ++ [FormReset; CallOnSuccess cb (Some r)]) /\
    isRedirectingRef w1 = false.
Proof.
  intros Hs Hg Hok Hu Hr.
  apply truthy_url_none in Hu.
  pose proof (run_success o w r Hs Hg Hok Hu) as Hrun.
  rewrite Hr in Hrun.
  eexists. exists (toast_events ToastSuccess (opt_successToast o) (heap w r)).
  split; [exact Hrun|]. cbn.
  split; [reflexivity|].
  split; [apply toast_events_success_toasts|].
  split; [reflexivity|].
  split.
  - intros cb Hcb. rewrite Hcb. reflexivity.
  - apply guard_false in Hg. destruct Hg as (r' & _ & _ & _ & Hred).
    exact Hred.
Qed.

(** C3.  A successful result and a redirect target [U] (a non-empty
    [redirectUrl]): the effect calls [router.push(U)] once, as its last
    call, with [isRedirectingRef] set; it does not reset the form and does
    not call [onSuccess], whatever [resetOnSuccess] says.  Before the push
    come only toasts. *)
Theorem success_redirect_supersedes o w r (U : string) :
  state w = Some r -> guard w = false ->
  success (heap w r) = true ->
  redirectUrl o = Some U -> U <> "" ->
  exists w1 toasts,
    useEffect_reconcile o w = Done tt w1 /\
    log w1 = log w ++ toasts ++ [RouterPush (opt_useLoaderRouter o) U] /\
    forallb is_toast toasts = true /\
    count is_redirect (toasts ++ [RouterPush (opt_useLoaderRouter o) U]) = 1 /\
    count is_reset (toasts ++ [RouterPush (opt_useLoaderRouter o) U]) = 0 /\
    count is_callback (toasts ++ [RouterPush (opt_useLoaderRouter o) U]) = 0 /\
    isRedirectingRef w1 = true /\
    formValues w1 = formValues w.
Proof.
  intros Hs Hg Hok Hu HU.
  pose proof (truthy_url_some o U Hu HU) as Ht.
  pose proof (run_redirect o w r U Hs Hg Hok Ht) as Hrun.
  pose proof (toast_events_success_toasts (opt_successToast o) (heap w r))
    as Htoasts.
  destruct (toasts_only _ Htoasts) as (N1 & N2 & N3).
  eexists. exists (toast_events ToastSuccess (opt_successToast o) (heap w r)).
  split; [exact Hrun|]. cbn.
  rewrite !count_app, N1, N2, N3.
  repeat split; auto.
Qed.

(** C4.  A failed result: the effect shows the error toast when it is
    enabled and then calls [onError], once, with that very result, when one
    was supplied; it makes no other call, so the form is not reset and the
    router is not called, and the form values and [isRedirectingRef] stay
    as they were.  And no entry point of the hook ever throws: the effect,
    a render, [onSubmit] and the first render all return normally, from
    every world and under all options. *)
Theorem failure_calls_back_never_throws o w r :
  state w = Some r -> guard w = false ->
  success (heap w r) = false ->
  exists w1 toasts,
    useEffect_reconcile o w = Done tt w1 /\
    toasts = toast_events ToastError (opt_errorToast o) (heap w r) /\
    log w1 = log w ++ toasts
                   ++ callback_events CallOnError (onError o) (Some r) /\
    (forall cb, onError o = Some cb ->
       log w1 = log w ++ toasts ++ [CallOnError cb (Some r)]) /\
    (onError o = None -> log w1 = log w ++ toasts) /\
    forallb is_toast toasts = true /\
    formValues w1 = formValues w /\
    isRedirectingRef w1 = false /\
    (forall o' w', exists w'', useEffect_reconcile o' w' = Done tt w'') /\
    (forall o' st p w', exists w'', render o' st p w' = Done tt w'') /\
    (forall (data : TInput) w', exists w'', onSubmit data w' = Done tt w'') /\
    (forall h o', exists w'', mount h o' = Done tt w'').
Proof.
  intros Hs Hg Hok.
  pose proof (run_failure o w r Hs Hg Hok) as Hrun.
  eexists. exists (toast_events ToastError (opt_errorToast o) (heap w r)).
  split; [exact Hrun|]. cbn.
  split; [reflexivity|].
  split; [reflexivity|].
  split; [intros cb Hcb; rewrite Hcb; reflexivity|].
  split; [intros Hcb; rewrite Hcb; cbn; rewrite app_nil_r; reflexivity|].
  split; [apply toast_events_error_toasts|].
  split; [reflexivity|].
  split.
  { apply guard_false in Hg. destruct Hg as (r' & _ & _ & _ & Hred).
    exact Hred. }
  split.
  { intros o' w'. destruct (reconcile_settles o' w') as (w'' & evs & H & _).
    eauto. }
  split; [intros; apply render_total|].
  split; [intros; apply onSubmit_total|].
  intros; apply mount_total.
Qed.

(** C6.  Eligibility reset.  Every render that turns [pending] on clears
    [processedStateRef] and [isRedirectingRef], and calls nothing.  So,
    once [r1] has been processed, a further submission that resolves to
    [r2] ends with an unblocked run of the effect on [r2]: [r2] is marked
    and gets the calls of a fresh result.  That holds for every [r2], in
    particular for an object other than [r1] with the same content. *)
Theorem new_submission_resets_eligibility o w r1 r2 (data : TInput) :
  state w = Some r1 -> pending w = false ->
  processedStateRef w = Some r1 ->
  (forall st, exists wp,
      render o st true w = Done tt wp /\
      pending wp = true /\
      processedStateRef wp = None /\ isRedirectingRef wp = false /\
      log wp = log w) /\
  (exists wf w3,
      state wf = Some r2 /\ guard wf = false /\
      log wf = log w ++ [FormAction data] /\
      submission o data (Some r2) w = useEffect_reconcile o wf /\
      submission o data (Some r2) w = Done tt w3 /\
      processedStateRef w3 = Some r2 /\
      log w3 = log w ++ [FormAction data]
                     ++ spec_reaction o (heap w r2) r2).
Proof.
  intros Hs Hp Hm. split.
  - intro st. eexists. split; [apply render_started; assumption|].
    cbn. auto.
  - set (wf := mkWorld (heap w) (Some r2) false None false (formValues w)
                       (log w ++ [FormAction data])).
    assert (Hgf : guard wf = false) by reflexivity.
    destruct (run_eligible o wf r2 eq_refl Hgf)
      as (w3 & Hrun & Hlog & _ & _ & _ & Hm3).
    exists wf, w3.
    rewrite (submission_run o data (Some r2) w Hp). fold wf.
    repeat split; auto.
    rewrite Hlog. cbn. rewrite <- app_assoc. reflexivity.
Qed.

(** C7.  Order: for a successful result with the success toast enabled and
    a redirect target [U], the effect makes exactly two calls, the toast
    first and [router.push(U)] second. *)
Theorem toast_precedes_redirect o w r (U : string) :
  state w = Some r -> guard w = false ->
  success (heap w r) = true ->
  truthy_toast (opt_successToast o) = true ->
  redirectUrl o = Some U -> U <> "" ->
  exists w1 msg,
    useEffect_reconcile o w = Done tt w1 /\
    log w1 = log w ++ [ToastSuccess msg;
                       RouterPush (opt_useLoaderRouter o) U].
Proof.
  intros Hs Hg Hok Ht Hu HU.
  pose proof (truthy_url_some o U Hu HU) as Hurl.
  pose proof (run_redirect o w r U Hs Hg Hok Hurl) as Hrun.
  unfold toast_events in Hrun. rewrite Ht in Hrun.
  eexists. eexists. split; [exact Hrun|]. reflexivity.
Qed.

(** C8.  Message selection: for a processed result whose toast is enabled
    (success toast on a success, error toast on a failure), the toast is
    the first call, and its text is the option itself when the option is a
    string and [result.message] when it is [true]; no second toast
    follows. *)
Theorem toast_message_selection o w r :
  state w = Some r -> guard w = false ->
  exists w1,
    useEffect_reconcile o w = Done tt w1 /\
    (success (heap w r) = true ->
     truthy_toast (opt_successToast o) = true ->
     exists rest,
       count is_toast rest = 0 /\
       (forall text, opt_successToast o = ToastText text ->
          log w1 = log w ++ ToastSuccess text :: rest) /\
       (forall b, opt_successToast o = ToastFlag b ->
          log w1 = log w ++ ToastSuccess (message (heap w r)) :: rest)) /\
    (success (heap w r) = false ->
     truthy_toast (opt_errorToast o) = true ->
     exists rest,
       count is_toast rest = 0 /\
       (forall text, opt_errorToast o = ToastText text ->
          log w1 = log w ++ ToastError text :: rest) /\
       (forall b, opt_errorToast o = ToastFlag b ->
          log w1 = log w ++ ToastError (message (heap w r)) :: rest)).
Proof.
  intros Hs Hg.
  destruct (run_eligible o w r Hs Hg) as (w1 & Hrun & Hlog & _).
  exists w1. split; [exact Hrun|].
  unfold spec_reaction, toast_events in Hlog.
  split; intros Hok Ht; rewrite Hok, Ht in Hlog; cbn in Hlog.
  - eexists. split; [|split].
    2:{ intros text E. rewrite E in Hlog. exact Hlog. }
    2:{ intros b E. rewrite E in Hlog. exact Hlog. }
    unfold callback_events, count.
    destruct (truthy_url (redirectUrl o)); destruct (opt_resetOnSuccess o);
      destruct (onSuccess o); reflexivity.
  - eexists. split; [|split].
    2:{ intros text E. rewrite E in Hlog. exact Hlog. }
    2:{ intros b E. rewrite E in Hlog. exact Hlog. }
    unfold callback_events, count. destruct (onError o); reflexivity.
Qed.

(** C9.  A seed result: when [initialState] is a result [r], the first
    render, before any submission, runs the effect on [r] and the guard
    lets it through; [r] is marked and gets the calls any resolved result
    gets (toast, redirect, reset, callbacks). *)
Theorem initial_state_is_processed_on_mount
        (h : ref -> ServerActionState) o r :
  initialState o = Some r ->
  guard (initial_world h o) = false /\
  mount h o = useEffect_reconcile o (initial_world h o) /\
  exists w1,
    mount h o = Done tt w1 /\
    processedStateRef w1 = Some r /\
    log w1 = spec_reaction o (h r) r.
Proof.
  intro Hi.
  assert (Hg : guard (initial_world h o) = false).
  { unfold guard, initial_world. cbn. rewrite Hi. reflexivity. }
  split; [exact Hg|].
  split; [apply mount_run|].
  destruct (run_eligible o (initial_world h o) r) as (w1 & Hrun & Hlog & _ & _ & _ & Hm);
    [exact Hi | exact Hg |].
  exists w1. rewrite mount_run. repeat split; auto.
Qed.

(** C10.  Empty strings: with [successToast] (or [errorToast]) the empty
    string, a processed result gets no success (or error) toast, and the
    run is the run under the option [false]; with [redirectUrl] the empty
    string there is no [router.push], [isRedirectingRef] stays false, and
    the run is the run with the option left out. *)
Theorem empty_string_options_are_off o w r :
  state w = Some r -> guard w = false ->
  exists w1 evs,
    useEffect_reconcile o w = Done tt w1 /\
    log w1 = log w ++ evs /\
    (successToast o = Some (ToastText "") ->
     count is_toast_success evs = 0 /\
     useEffect_reconcile (set_successToast (Some (ToastFlag false)) o) w
       = Done tt w1) /\
    (errorToast o = Some (ToastText "") ->
     count is_toast_error evs = 0 /\
     useEffect_reconcile (set_errorToast (Some (ToastFlag false)) o) w
       = Done tt w1) /\
    (redirectUrl o = Some "" ->
     count is_redirect evs = 0 /\ isRedirectingRef w1 = false /\
     useEffect_reconcile (set_redirectUrl None o) w = Done tt w1).
Proof.
  intros Hs Hg.
  pose proof (proj1 (guard_false w) Hg) as (r' & _ & _ & _ & Hred).
  destruct (run_eligible o w r Hs Hg) as (w1 & Hrun & Hlog & _).
  exists w1, (spec_reaction o (heap w r) r).
  split; [exact Hrun|]. split; [exact Hlog|].
  split; [|split].
  - intro E. split.
    + unfold spec_reaction, toast_events, callback_events, count,
        opt_successToast. rewrite E. cbn.
      destruct (success (heap w r));
        destruct (truthy_toast (opt_errorToast o));
        destruct (truthy_url (redirectUrl o));
        destruct (opt_resetOnSuccess o);
        destruct (onSuccess o); destruct (onError o); reflexivity.
    + rewrite <- Hrun. unfold_hook.
      unfold opt_successToast, set_successToast. cbn. rewrite E. reflexivity.
  - intro E. split.
    + unfold spec_reaction, toast_events, callback_events, count,
        opt_errorToast. rewrite E. cbn.
      destruct (success (heap w r));
        destruct (truthy_toast (opt_successToast o));
        destruct (truthy_url (redirectUrl o));
        destruct (opt_resetOnSuccess o);
        destruct (onSuccess o); destruct (onError o); reflexivity.
    + rewrite <- Hrun. unfold_hook.
      unfold opt_errorToast, set_errorToast. cbn. rewrite E. reflexivity.
  - intro E.
    assert (Hu : truthy_url (redirectUrl o) = None) by (rewrite E; reflexivity).
    split; [|split].
    + unfold spec_reaction, toast_events, callback_events, count.
      rewrite Hu.
      destruct (success (heap w r));
        destruct (truthy_toast (opt_successToast o));
        destruct (truthy_toast (opt_errorToast o));
        destruct (opt_resetOnSuccess o);
        destruct (onSuccess o); destruct (onError o); reflexivity.
    + destruct (success (heap w r)) eqn:Hok.
      * rewrite (run_success o w r Hs Hg Hok Hu) in Hrun.
        injection Hrun as <-. exact Hred.
      * rewrite (run_failure o w r Hs Hg Hok) in Hrun.
        injection Hrun as <-. exact Hred.
    + rewrite <- Hrun. unfold_hook.
      unfold set_redirectUrl. cbn. rewrite E. reflexivity.
Qed.

(** * Further properties of the hook *)

(** ** Whole submissions *)

(** X1.  An action that resolves to [undefined]: from rest, the submission
    dispatches the action and nothing else is called; [state] is
    [undefined], both cells are clear and the form keeps its values. *)
Theorem undefined_result_is_ignored o (data : TInput) w :
  pending w = false ->
  submission o data None w =
  Done tt (mkWorld (heap w) None false None false (formValues w)
                   (log w ++ [FormAction data])).
Proof.
  intro Hp. rewrite (submission_run o data None w Hp).
  unfold useEffect_reconcile. apply reconcile_blocked. reflexivity.
Qed.

(** X2.  Any number of submissions in a row, from rest: none throws, and
    the collaborators see, per submission and in order, the dispatch and
    then the calls for its result, once; a result that is the same object
    as the one before, or equal to it, is processed like any other, and an
    [undefined] one adds no call. *)
Theorem submissions_processed_in_order o
        (l : list (TInput * StateValue)) w :
  pending w = false ->
  exists w',
    submissions o l w = Done tt w' /\
    log w' = log w ++ spec_history o (heap w) l /\
    pending w' = false /\ heap w' = heap w.
Proof.
  revert w. induction l as [|[data st] rest IH]; intros w Hp.
  - exists w. cbn. rewrite app_nil_r. unfold ret. auto.
  - cbn [submissions spec_history]. unfold bind.
    rewrite (submission_run o data st w Hp).
    set (wf := mkWorld (heap w) st false None false (formValues w)
                       (log w ++ [FormAction data])).
    assert (Hnext : exists w1,
               useEffect_reconcile o wf = Done tt w1 /\
               log w1 = log wf ++ match st with
                                  | Some r => spec_reaction o (heap w r) r
                                  | None => []
                                  end /\
               pending w1 = false /\ heap w1 = heap w).
    { destruct st as [r|].
      - destruct (run_eligible o wf r eq_refl eq_refl)
          as (w1 & Hrun & Hlog & Hh & _ & Hp1 & _).
        exists w1. auto.
      - exists wf. unfold useEffect_reconcile.
        rewrite reconcile_blocked by reflexivity.
        rewrite app_nil_r. auto. }
    destruct Hnext as (w1 & Hrun & Hlog & Hp1 & Hh1).
    rewrite Hrun.
    destruct (IH w1 Hp1) as (w' & Hrest & Hlog' & Hp' & Hh').
    exists w'. split; [exact Hrest|].
    split; [|split; [exact Hp'|congruence]].
    rewrite Hlog', Hlog, Hh1. subst wf. cbn [log].
    rewrite <- !app_assoc. reflexivity.
Qed.

(** X3.  Re-runs: the effect run any number of times in a row, once at
    least, ends in the world one run ends in. *)
Theorem rerun_is_one_run o (n : nat) w :
  rerun o (S n) w = useEffect_reconcile o w.
Proof.
  destruct (reconcile_settles o w) as (w1 & evs & Hrun & _ & Hg & _).
  cbn [rerun]. unfold bind. rewrite Hrun.
  clear Hrun. induction n as [|n IH]; [reflexivity|].
  cbn [rerun]. unfold bind, useEffect_reconcile.
  rewrite reconcile_blocked by assumption. exact IH.
Qed.

(** X4.  [onSubmit] clears [isRedirectingRef] and leaves
    [processedStateRef] alone: when the current result is the marked one,
    [onSubmit] followed by a run of the effect dispatches the action and
    calls nothing else, also after a redirect. *)
Theorem onSubmit_keeps_the_mark o (data : TInput) w :
  processedStateRef w = state w ->
  bind (onSubmit data) (fun _ => useEffect_reconcile o) w =
  Done tt (mkWorld (heap w) (state w) (pending w) (processedStateRef w)
                   false (formValues w) (log w ++ [FormAction data])).
Proof.
  intro Hm. unfold onSubmit, bind, modify, useEffect_reconcile.
  apply reconcile_blocked. apply guard_marked. exact Hm.
Qed.

(** ** Options *)

(** X5.  The defaults: with [resetOnSuccess], [redirectUrl], [successToast]
    and [errorToast] all left out, a successful result gets
    [toast.success(result.message)], then [form.reset()], then [onSuccess]
    when supplied, and the form holds its default values; a failed one gets
    [toast.error(result.message)], then [onError] when supplied, and the
    form keeps its values. *)
Theorem defaults_toast_reset_and_call o w r :
  state w = Some r -> guard w = false ->
  resetOnSuccess o = None -> redirectUrl o = None ->
  successToast o = None -> errorToast o = None ->
  exists w1,
    useEffect_reconcile o w = Done tt w1 /\
    (success (heap w r) = true ->
     log w1 = log w ++ [ToastSuccess (message (heap w r)); FormReset]
                    ++ callback_events CallOnSuccess (onSuccess o) (Some r) /\
     formValues w1 = defaultValues o) /\
    (success (heap w r) = false ->
     log w1 = log w ++ [ToastError (message (heap w r))]
                    ++ callback_events CallOnError (onError o) (Some r) /\
     formValues w1 = formValues w).
Proof.
  intros Hs Hg Hr Hu Hst Het.
  assert (Hurl : truthy_url (redirectUrl o) = None) by (rewrite Hu; reflexivity).
  destruct (success (heap w r)) eqn:Hok.
  - pose proof (run_success o w r Hs Hg Hok Hurl) as Hrun.
    unfold opt_resetOnSuccess, opt_successToast in Hrun.
    rewrite Hr, Hst in Hrun. cbn in Hrun.
    eexists. split; [exact Hrun|]. cbn.
    split; [auto | discriminate].
  - pose proof (run_failure o w r Hs Hg Hok) as Hrun.
    unfold opt_errorToast in Hrun. rewrite Het in Hrun. cbn in Hrun.
    eexists. split; [exact Hrun|]. cbn.
    split; [discriminate | auto].
Qed.

(** X6.  [resetOnSuccess: false]: a successful result without a redirect
    target leaves the form values as they are and makes no [form.reset()];
    [onSuccess] is still called, once, after the toasts. *)
Theorem reset_off_keeps_the_form o w r :
  state w = Some r -> guard w = false ->
  success (heap w r) = true ->
  redirectUrl o = None \/ redirectUrl o = Some "" ->
  resetOnSuccess o = Some false ->
  exists w1 toasts,
    useEffect_reconcile o w = Done tt w1 /\
    formValues w1 = formValues w /\
    forallb is_toast toasts = true /\
    log w1 = log w ++ toasts
                   ++ callback_events CallOnSuccess (onSuccess o) (Some r).
Proof.
  intros Hs Hg Hok Hu Hr.
  apply truthy_url_none in Hu.
  pose proof (run_success o w r Hs Hg Hok Hu) as Hrun.
  unfold opt_resetOnSuccess in Hrun. rewrite Hr in Hrun. cbn in Hrun.
  eexists. exists (toast_events ToastSuccess (opt_successToast o) (heap w r)).
  split; [exact Hrun|]. cbn.
  split; [reflexivity|].
  split; [apply toast_events_success_toasts | reflexivity].
Qed.

(** X7.  The two paths do not mix: a successful result never gets
    [toast.error] or [onError], and a failed one never gets
    [toast.success], [router.push], [form.reset()] or [onSuccess],
    whatever the options. *)
Theorem paths_do_not_mix o w r :
  state w = Some r -> guard w = false ->
  exists w1 evs,
    useEffect_reconcile o w = Done tt w1 /\
    log w1 = log w ++ evs /\
    (success (heap w r) = true -> count is_failure_call evs = 0) /\
    (success (heap w r) = false -> count is_success_call evs = 0).
Proof.
  intros Hs Hg.
  destruct (run_eligible o w r Hs Hg) as (w1 & Hrun & Hlog & _).
  exists w1, (spec_reaction o (heap w r) r).
  split; [exact Hrun|]. split; [exact Hlog|].
  unfold spec_reaction, toast_events, callback_events, count.
  split; intros ->;
    destruct (truthy_toast (opt_successToast o));
    destruct (truthy_toast (opt_errorToast o));
    destruct (truthy_url (redirectUrl o));
    destruct (opt_resetOnSuccess o);
    destruct (onSuccess o); destruct (onError o); reflexivity.
Qed.

Lemma toast_events_filtered (mk : string -> @Event TInput)
      (t : ToastOption) (s : ServerActionState) :
  (forall m, is_toast (mk m) = true) ->
  filter not_toast (toast_events mk t s) = [].
Proof.
  intro Hmk. unfold toast_events, not_toast.
  destruct (truthy_toast t); cbn; [rewrite Hmk|]; reflexivity.
Qed.

(** X8.  The toast options bear on toasts alone: under any other
    [successToast] and [errorToast] a run makes the same calls, toasts left
    aside, in the same order, and ends with the same cells and form
    values. *)
Theorem toast_options_only_change_toasts o
        (ts te : option ToastOption) w :
  exists w1 w2,
    useEffect_reconcile o w = Done tt w1 /\
    useEffect_reconcile (set_errorToast te (set_successToast ts o)) w
      = Done tt w2 /\
    filter not_toast (log w2) = filter not_toast (log w1) /\
    formValues w2 = formValues w1 /\
    processedStateRef w2 = processedStateRef w1 /\
    isRedirectingRef w2 = isRedirectingRef w1.
Proof.
  set (o' := set_errorToast te (set_successToast ts o)).
  destruct (guard w) eqn:Hg.
  - exists w, w. unfold useEffect_reconcile.
    rewrite !reconcile_blocked by assumption. repeat split; auto.
  - destruct (proj1 (guard_false w) Hg) as (r & Hs & _).
    assert (Ts : forall m, @is_toast TInput (ToastSuccess m) = true)
      by reflexivity.
    assert (Te : forall m, @is_toast TInput (ToastError m) = true)
      by reflexivity.
    destruct (success (heap w r)) eqn:Hok.
    + destruct (truthy_url (redirectUrl o)) as [url|] eqn:Hu.
      * eexists. eexists.
        split; [apply (run_redirect o w r url); assumption|].
        split; [apply (run_redirect o' w r url); assumption|].
        cbn. rewrite !filter_app, !toast_events_filtered by assumption.
        repeat split; auto.
      * eexists. eexists.
        split; [apply (run_success o w r); assumption|].
        split; [apply (run_success o' w r); assumption|].
        cbn. rewrite !filter_app, !toast_events_filtered by assumption.
        repeat split; auto.
    + eexists. eexists.
      split; [apply (run_failure o w r); assumption|].
      split; [apply (run_failure o' w r); assumption|].
      cbn. rewrite !filter_app, !toast_events_filtered by assumption.
      repeat split; auto.
Qed.

Lemma any_router_toasts (mk : string -> @Event TInput)
      (t : ToastOption) (s : ServerActionState) :
  (forall m, any_router (mk m) = mk m) ->
  map any_router (toast_events mk t s) = toast_events mk t s.
Proof.
  intro Hmk. unfold toast_events.
  destruct (truthy_toast t); cbn; [rewrite Hmk|]; reflexivity.
Qed.

(** X9.  [useLoaderRouter] picks the router and nothing else: under any
    other value of it a run makes the same calls, but for the router that
    gets the push, and ends with the same cells and form values. *)
Theorem router_choice_only_moves_the_push o (b : option bool) w :
  exists w1 w2,
    useEffect_reconcile o w = Done tt w1 /\
    useEffect_reconcile (set_useLoaderRouter b o) w = Done tt w2 /\
    map any_router (log w2) = map any_router (log w1) /\
    formValues w2 = formValues w1 /\
    processedStateRef w2 = processedStateRef w1 /\
    isRedirectingRef w2 = isRedirectingRef w1.
Proof.
  set (o' := set_useLoaderRouter b o).
  destruct (guard w) eqn:Hg.
  - exists w, w. unfold useEffect_reconcile.
    rewrite !reconcile_blocked by assumption. repeat split; auto.
  - destruct (proj1 (guard_false w) Hg) as (r & Hs & _).
    destruct (success (heap w r)) eqn:Hok.
    + destruct (truthy_url (redirectUrl o)) as [url|] eqn:Hu.
      * eexists. eexists.
        split; [apply (run_redirect o w r url); assumption|].
        split; [apply (run_redirect o' w r url); assumption|].
        cbn. rewrite !map_app. cbn. repeat split; auto.
      * eexists. eexists.
        split; [apply (run_success o w r); assumption|].
        split; [apply (run_success o' w r); assumption|].
        cbn. repeat split; auto.
    + eexists. eexists.
      split; [apply (run_failure o w r); assumption|].
      split; [apply (run_failure o' w r); assumption|].
      cbn. repeat split; auto.
Qed.

(** ** Invariants of a mounted hook *)

Lemma useEffect_pending_clear w :
  exists w1,
    useEffect_pending w = Done tt w1 /\
    cells_clear_while_pending w1 /\
    heap w1 = heap w /\ log w1 = log w /\
    (pending w = false -> w1 = w) /\
    (pending w = true -> isRedirectingRef w1 = false).
Proof.
  destruct (pending w) eqn:Hp.
  - rewrite useEffect_pending_true by assumption.
    eexists. split; [reflexivity|]. unfold cells_clear_while_pending. cbn.
    repeat split; auto. discriminate.
  - rewrite useEffect_pending_false by assumption.
    exists w. split; [reflexivity|]. unfold cells_clear_while_pending.
    rewrite Hp. repeat split; auto; discriminate.
Qed.

Lemma reconcile_keeps_clear o w :
  cells_clear_while_pending w ->
  exists w1,
    useEffect_reconcile o w = Done tt w1 /\
    cells_clear_while_pending w1 /\ pending w1 = pending w.
Proof.
  intro Hinv. destruct (guard w) eqn:Hg.
  - exists w. unfold useEffect_reconcile.
    rewrite reconcile_blocked by assumption. auto.
  - destruct (proj1 (guard_false w) Hg) as (r & Hs & Hp & _).
    destruct (run_eligible o w r Hs Hg) as (w1 & Hrun & _ & _ & _ & Hp1 & _).
    exists w1. split; [exact Hrun|]. split; [|exact Hp1].
    unfold cells_clear_while_pending. rewrite Hp1, Hp. discriminate.
Qed.

Lemma reconcile_keeps_justified o w :
  redirect_flag_justified o w ->
  exists w1,
    useEffect_reconcile o w = Done tt w1 /\
    redirect_flag_justified o w1 /\ pending w1 = pending w.
Proof.
  intro Hinv. destruct (guard w) eqn:Hg.
  - exists w. unfold useEffect_reconcile.
    rewrite reconcile_blocked by assumption. auto.
  - destruct (proj1 (guard_false w) Hg) as (r & Hs & Hp & _ & Hred).
    destruct (success (heap w r)) eqn:Hok.
    + destruct (truthy_url (redirectUrl o)) as [url|] eqn:Hu.
      * eexists. split; [apply (run_redirect o w r url); assumption|].
        split; [|reflexivity].
        intros _. exists r, url. cbn.
        repeat split; auto.
        rewrite app_assoc. apply in_or_app. right. left. reflexivity.
      * eexists. split; [apply (run_success o w r); assumption|].
        split; [|reflexivity].
        unfold redirect_flag_justified. cbn. rewrite Hred. discriminate.
    + eexists. split; [apply (run_failure o w r); assumption|].
      split; [|reflexivity].
      unfold redirect_flag_justified. cbn. rewrite Hred. discriminate.
Qed.

Lemma perform_keeps_clear o (a : Action) w :
  cells_clear_while_pending w ->
  exists w1, perform o a w = Done tt w1 /\ cells_clear_while_pending w1.
Proof.
  intro Hinv. destruct a as [data | st p |]; cbn [perform].
  - eexists. split; [reflexivity|].
    unfold cells_clear_while_pending in *. cbn. intro Hp.
    destruct (Hinv Hp) as (Hm & _). auto.
  - unfold render, bind, gets, modify.
    set (wi := set_pending p (set_state st w)).
    destruct (Bool.eqb (pending w) p) eqn:Eb.
    + (* [pending] did not change: the second effect does not run *)
      apply Bool.eqb_prop in Eb.
      assert (Hi : cells_clear_while_pending wi).
      { unfold cells_clear_while_pending, wi. cbn. rewrite <- Eb. exact Hinv. }
      unfold run_effects, when, bind. cbn [negb]. rewrite orb_false_r.
      destruct (negb (strict_eq (state w) st)).
      * destruct (reconcile_keeps_clear o wi Hi) as (w1 & Hrun & H1 & _).
        rewrite Hrun. exists w1. split; [reflexivity|exact H1].
      * exists wi. split; [reflexivity|exact Hi].
    + (* [pending] changed: both effects run *)
      cbn [negb]. rewrite run_effects_pending_changed. unfold bind.
      destruct (reconcile_settles o wi) as (w1 & evs & Hrun & _).
      rewrite Hrun.
      destruct (useEffect_pending_clear w1) as (w2 & Hrun2 & H2 & _).
      exists w2. split; [exact Hrun2|exact H2].
  - destruct (reconcile_keeps_clear o w Hinv) as (w1 & Hrun & H1 & _).
    exists w1. split; assumption.
Qed.

Lemma perform_keeps_justified o (a : Action) w :
  redirect_flag_justified o w ->
  exists w1, perform o a w = Done tt w1 /\ redirect_flag_justified o w1.
Proof.
  intro Hinv. destruct a as [data | st p |]; cbn [perform].
  - eexists. split; [reflexivity|].
    unfold redirect_flag_justified. cbn. discriminate.
  - unfold render, bind, gets, modify.
    set (wi := set_pending p (set_state st w)).
    assert (Hi : redirect_flag_justified o wi) by exact Hinv.
    destruct (reconcile_keeps_justified o wi Hi) as (w1 & Hrun & H1 & Hp1).
    unfold run_effects, when, bind.
    destruct (negb (Bool.eqb (pending w) p)).
    + rewrite orb_true_r, Hrun.
      destruct (useEffect_pending_clear w1)
        as (w2 & Hrun2 & _ & _ & _ & Hsame & Hoff).
      exists w2. split; [exact Hrun2|].
      destruct (pending w1) eqn:Hp.
      * unfold redirect_flag_justified. rewrite (Hoff eq_refl). discriminate.
      * rewrite (Hsame eq_refl). exact H1.
    + rewrite orb_false_r.
      destruct (negb (strict_eq (state w) st)).
      * rewrite Hrun. exists w1. split; [reflexivity|exact H1].
      * exists wi. split; [reflexivity|exact Hi].
  - destruct (reconcile_keeps_justified o w Hinv) as (w1 & Hrun & H1 & _).
    exists w1. split; assumption.
Qed.

(** X10.  From the first render on, through any sequence of submit calls,
    renders and re-runs of the effect, nothing throws, and in the world
    reached: while [pending] is true, [processedStateRef] is [undefined]
    and [isRedirectingRef] is false. *)
Theorem pending_keeps_cells_clear (h : ref -> ServerActionState) o
        (l : list Action) :
  exists w0 w1,
    mount h o = Done tt w0 /\
    perform_all o l w0 = Done tt w1 /\
    cells_clear_while_pending w1.
Proof.
  assert (Hall : forall l w, cells_clear_while_pending w ->
            exists w1, perform_all o l w = Done tt w1 /\
                       cells_clear_while_pending w1).
  { clear l. induction l as [|a l IH]; intros w Hinv.
    - exists w. split; [reflexivity|exact Hinv].
    - cbn [perform_all]. unfold bind.
      destruct (perform_keeps_clear o a w Hinv) as (w1 & Hrun & H1).
      rewrite Hrun. apply IH. exact H1. }
  assert (H0 : cells_clear_while_pending (initial_world h o))
    by (unfold cells_clear_while_pending; cbn; discriminate).
  destruct (reconcile_keeps_clear o _ H0) as (w0 & Hrun0 & Hinv0 & _).
  destruct (Hall l w0 Hinv0) as (w1 & Hrun1 & Hinv1).
  exists w0, w1. rewrite mount_run. auto.
Qed.

(** X11.  From the first render on, through any sequence of submit calls,
    renders and re-runs of the effect: [isRedirectingRef] is true only
    when the marked result is a successful one, a redirect target is
    configured and the log holds the [router.push] to it. *)
Theorem redirect_flag_is_justified (h : ref -> ServerActionState) o
        (l : list Action) :
  exists w0 w1,
    mount h o = Done tt w0 /\
    perform_all o l w0 = Done tt w1 /\
    redirect_flag_justified o w1.
Proof.
  assert (Hall : forall l w, redirect_flag_justified o w ->
            exists w1, perform_all o l w = Done tt w1 /\
                       redirect_flag_justified o w1).
  { clear l. induction l as [|a l IH]; intros w Hinv.
    - exists w. split; [reflexivity|exact Hinv].
    - cbn [perform_all]. unfold bind.
      destruct (perform_keeps_justified o a w Hinv) as (w1 & Hrun & H1).
      rewrite Hrun. apply IH. exact H1. }
  assert (H0 : redirect_flag_justified o (initial_world h o))
    by (unfold redirect_flag_justified; cbn; discriminate).
  destruct (reconcile_keeps_justified o _ H0) as (w0 & Hrun0 & Hinv0 & _).
  destruct (Hall l w0 Hinv0) as (w1 & Hrun1 & Hinv1).
  exists w0, w1. rewrite mount_run. auto.
Qed.

(** X12.  A redirect under way holds everything back: with
    [isRedirectingRef] set and nothing pending, no sequence of re-runs and
    of renders with [pending] false makes any call, whatever results those
    renders bring; the flag, the mark and the form values stay. *)
Theorem redirect_holds_everything_back o (l : list Action) w :
  isRedirectingRef w = true -> pending w = false ->
  forallb starts_nothing l = true ->
  exists w1,
    perform_all o l w = Done tt w1 /\
    log w1 = log w /\
    isRedirectingRef w1 = true /\
    processedStateRef w1 = processedStateRef w /\
    formValues w1 = formValues w.
Proof.
  revert w. induction l as [|a l IH]; intros w Hred Hp Hl.
  - exists w. repeat split; auto.
  - cbn in Hl. apply andb_true_iff in Hl as [Ha Hl].
    cbn [perform_all]. unfold bind.
    assert (Hstep : exists w1,
               perform o a w = Done tt w1 /\ log w1 = log w /\
               isRedirectingRef w1 = true /\ pending w1 = false /\
               processedStateRef w1 = processedStateRef w /\
               formValues w1 = formValues w).
    { destruct a as [data | st p |]; cbn in Ha; [discriminate | |].
      - apply negb_true_iff in Ha. subst p.
        unfold perform, render, bind, gets, modify.
        rewrite Hp. cbn [Bool.eqb negb].
        unfold run_effects, when, bind. rewrite orb_false_r.
        set (wi := set_pending false (set_state st w)).
        destruct (negb (strict_eq (state w) st)).
        + unfold useEffect_reconcile. rewrite reconcile_blocked.
          * exists wi. repeat split; assumption.
          * unfold guard, wi. cbn. rewrite Hred. apply orb_true_r.
        + exists wi. repeat split; assumption.
      - exists w. cbn [perform]. unfold useEffect_reconcile.
        rewrite reconcile_blocked.
        + repeat split; assumption.
        + unfold guard. rewrite Hred. apply orb_true_r. }
    destruct Hstep as (w1 & Hrun & Hlog & Hred1 & Hp1 & Hm1 & Hf1).
    rewrite Hrun.
    destruct (IH w1 Hred1 Hp1 Hl) as (w2 & Hrun2 & Hlog2 & Hred2 & Hm2 & Hf2).
    exists w2. repeat split; congruence.
Qed.

End Properties.





(** * The claims on the sample form *)

Lemma guard_blocks_everything_witness :
  pending Sample.in_flight = true /\
  useEffect_reconcile Sample.redirecting Sample.in_flight
    = Done tt Sample.in_flight.
Proof.
  split; [reflexivity|].
  apply guard_blocks_everything. right. left. reflexivity.
Defined.

Lemma reconcile_idempotent_witness :
  exists w1,
    useEffect_reconcile Sample.plain (Sample.arrived 1) = Done tt w1 /\
    bind (useEffect_reconcile Sample.plain)
         (fun _ => useEffect_reconcile Sample.plain) (Sample.arrived 1)
      = Done tt w1 /\
    log w1 = [ToastSuccess "Created"; FormReset;
              CallOnSuccess "onSuccess" (Some 1)] /\
    reconcile_reentrant Sample.plain 2 (Sample.arrived 1) = Done tt w1.
Proof.
  destruct (reconcile_idempotent Sample.plain (Sample.arrived 1) 1
              eq_refl eq_refl)
    as (w1 & evs & H1 & H2 & Hlog & _ & _ & _ & _ & Hg & Hn).
  exists w1. split; [exact H1|]. split; [exact H2|].
  split; [|apply Hn].
  destruct (Hg eq_refl) as (_ & Hevs). rewrite Hlog, Hevs. reflexivity.
Defined.

Lemma success_resets_then_calls_back_witness :
  exists w1 toasts,
    useEffect_reconcile Sample.plain (Sample.arrived 1) = Done tt w1 /\
    formValues (Sample.arrived 1) = Sample.typed /\
    formValues w1 = Sample.blank /\
    log w1 = toasts ++ [FormReset; CallOnSuccess "onSuccess" (Some 1)].
Proof.
  destruct (success_resets_then_calls_back Sample.plain (Sample.arrived 1) 1
              eq_refl eq_refl eq_refl (or_introl eq_refl) eq_refl)
    as (w1 & toasts & Hrun & Hform & _ & _ & Hlog & _).
  exists w1, toasts. split; [exact Hrun|]. split; [reflexivity|].
  split; [exact Hform|]. exact (Hlog "onSuccess" eq_refl).
Defined.

Lemma success_redirect_supersedes_witness :
  exists w1 toasts,
    useEffect_reconcile Sample.redirecting (Sample.arrived 1) = Done tt w1 /\
    log w1 = toasts ++ [RouterPush false "/list"] /\
    forallb is_toast toasts = true /\
    isRedirectingRef w1 = true /\
    formValues w1 = Sample.typed.
Proof.
  destruct (success_redirect_supersedes Sample.redirecting (Sample.arrived 1)
              1 "/list" eq_refl eq_refl eq_refl eq_refl)
    as (w1 & toasts & Hrun & Hlog & Ht & _ & _ & _ & Hred & Hform);
    [discriminate|].
  exists w1, toasts. repeat split; assumption.
Defined.

Lemma failure_calls_back_never_throws_witness :
  exists w1,
    useEffect_reconcile Sample.plain (Sample.arrived 2) = Done tt w1 /\
    log w1 = [ToastError "Duplicate"; CallOnError "onError" (Some 2)] /\
    formValues w1 = Sample.typed.
Proof.
  destruct (failure_calls_back_never_throws Sample.plain (Sample.arrived 2) 2
              eq_refl eq_refl eq_refl)
    as (w1 & toasts & Hrun & Ht & Hlog & _ & _ & _ & Hform & _).
  exists w1. split; [exact Hrun|]. split; [|exact Hform].
  rewrite Hlog, Ht. reflexivity.
Defined.

Lemma new_submission_resets_eligibility_witness :
  Sample.objects 3 = Sample.objects 1 /\
  Nat.eqb 3 1 = false /\
  processedStateRef Sample.settled = Some 1 /\
  exists w3,
    submission Sample.plain Sample.typed (Some 3) Sample.settled
      = Done tt w3 /\
    processedStateRef w3 = Some 3 /\
    log w3 = log Sample.settled ++
             [FormAction Sample.typed; ToastSuccess "Created"; FormReset;
              CallOnSuccess "onSuccess" (Some 3)].
Proof.
  split; [reflexivity|]. split; [reflexivity|]. split; [reflexivity|].
  destruct (new_submission_resets_eligibility Sample.plain Sample.settled
              1 3 Sample.typed eq_refl eq_refl eq_refl)
    as (_ & wf & w3 & _ & _ & _ & _ & Hrun & Hm & Hlog).
  exists w3. split; [exact Hrun|]. split; [exact Hm|]. exact Hlog.
Defined.

Lemma toast_precedes_redirect_witness :
  exists w1 msg,
    useEffect_reconcile Sample.redirecting (Sample.arrived 1) = Done tt w1 /\
    log w1 = [ToastSuccess msg; RouterPush false "/list"].
Proof.
  destruct (toast_precedes_redirect Sample.redirecting (Sample.arrived 1)
              1 "/list" eq_refl eq_refl eq_refl eq_refl eq_refl)
    as (w1 & msg & Hrun & Hlog); [discriminate|].
  exists w1, msg. split; assumption.
Defined.

Lemma toast_message_selection_witness :
  exists w1 w2 rest1 rest2,
    useEffect_reconcile Sample.literal (Sample.arrived 1) = Done tt w1 /\
    log w1 = ToastSuccess "Saved" :: rest1 /\
    useEffect_reconcile Sample.plain (Sample.arrived 2) = Done tt w2 /\
    log w2 = ToastError "Duplicate" :: rest2.
Proof.
  destruct (toast_message_selection Sample.literal (Sample.arrived 1) 1
              eq_refl eq_refl) as (w1 & Hrun1 & Hs1 & _).
  destruct (Hs1 eq_refl eq_refl) as (rest1 & _ & Htext & _).
  destruct (toast_message_selection Sample.plain (Sample.arrived 2) 2
              eq_refl eq_refl) as (w2 & Hrun2 & _ & He2).
  destruct (He2 eq_refl eq_refl) as (rest2 & _ & _ & Hflag).
  exists w1, w2, rest1, rest2.
  split; [exact Hrun1|]. split; [exact (Htext "Saved" eq_refl)|].
  split; [exact Hrun2|]. exact (Hflag true eq_refl).
Defined.

Lemma initial_state_is_processed_on_mount_witness :
  exists w1,
    mount Sample.objects Sample.seeded = Done tt w1 /\
    processedStateRef w1 = Some 1 /\
    log w1 = [ToastSuccess "Created"; FormReset;
              CallOnSuccess "onSuccess" (Some 1)].
Proof.
  destruct (initial_state_is_processed_on_mount Sample.objects Sample.seeded
              1 eq_refl) as (_ & _ & w1 & Hrun & Hm & Hlog).
  exists w1. split; [exact Hrun|]. split; [exact Hm|]. exact Hlog.
Defined.

Lemma empty_string_options_are_off_witness :
  exists w1 w2,
    useEffect_reconcile Sample.empty_strings (Sample.arrived 1)
      = Done tt w1 /\
    count is_toast (log w1) = 0 /\ count is_redirect (log w1) = 0 /\
    isRedirectingRef w1 = false /\
    useEffect_reconcile Sample.empty_strings (Sample.arrived 2)
      = Done tt w2 /\
    count is_toast (log w2) = 0.
Proof.
  destruct (empty_string_options_are_off Sample.empty_strings
              (Sample.arrived 1) 1 eq_refl eq_refl)
    as (w1 & evs1 & Hrun1 & Hlog1 & Hs1 & He1 & Hu1).
  destruct (empty_string_options_are_off Sample.empty_strings
              (Sample.arrived 2) 2 eq_refl eq_refl)
    as (w2 & evs2 & Hrun2 & Hlog2 & Hs2 & He2 & _).
  destruct (Hs1 eq_refl) as (Ts1 & _). destruct (He1 eq_refl) as (Te1 & _).
  destruct (Hu1 eq_refl) as (Tu1 & Hred1 & _).
  destruct (Hs2 eq_refl) as (Ts2 & _). destruct (He2 eq_refl) as (Te2 & _).
  exists w1, w2.
  assert (Hsum : forall l : list (@Event Sample.Fields),
             count is_toast_success l = 0 -> count is_toast_error l = 0 ->
             count is_toast l = 0).
  { unfold count, is_toast. induction l as [|e l IH]; cbn; [reflexivity|].
    destruct (is_toast_success e), (is_toast_error e); cbn;
      try discriminate; assumption. }
  rewrite Hlog1, Hlog2.
  change (log (Sample.arrived 1) ++ evs1) with evs1.
  change (log (Sample.arrived 2) ++ evs2) with evs2.
  repeat split; auto.
Defined.

(** * The further properties on the sample form *)

Lemma undefined_result_is_ignored_witness :
  pending Sample.settled = false /\
  submission Sample.plain Sample.typed None Sample.settled =
  Done tt (mkWorld Sample.objects None false None false Sample.blank
             [ToastSuccess "Created"; FormReset;
              CallOnSuccess "onSuccess" (Some 1);
              FormAction Sample.typed]).
Proof.
  split; [reflexivity|].
  apply (undefined_result_is_ignored Sample.plain Sample.typed Sample.settled).
  reflexivity.
Defined.

Lemma submissions_processed_in_order_witness :
  exists w',
    submissions Sample.plain
      [(Sample.typed, Some 1); (Sample.typed, Some 1);
       (Sample.blank, None); (Sample.typed, Some 2)]
      (initial_world Sample.objects Sample.plain) = Done tt w' /\
    log w' =
    [FormAction Sample.typed; ToastSuccess "Created"; FormReset;
     CallOnSuccess "onSuccess" (Some 1);
     FormAction Sample.typed; ToastSuccess "Created"; FormReset;
     CallOnSuccess "onSuccess" (Some 1);
     FormAction Sample.blank;
     FormAction Sample.typed; ToastError "Duplicate";
     CallOnError "onError" (Some 2)].
Proof.
  destruct (submissions_processed_in_order Sample.plain
              [(Sample.typed, Some 1); (Sample.typed, Some 1);
               (Sample.blank, None); (Sample.typed, Some 2)]
              (initial_world Sample.objects Sample.plain) eq_refl)
    as (w' & Hrun & Hlog & _).
  exists w'. split; [exact Hrun|exact Hlog].
Defined.

Lemma onSubmit_keeps_the_mark_witness :
  isRedirectingRef Sample.leaving = true /\
  bind (onSubmit Sample.typed)
       (fun _ => useEffect_reconcile Sample.redirecting) Sample.leaving =
  Done tt (mkWorld Sample.objects (Some 1) false (Some 1) false Sample.typed
             [ToastSuccess "Created"; RouterPush false "/list";
              FormAction Sample.typed]).
Proof.
  split; [reflexivity|].
  apply (onSubmit_keeps_the_mark Sample.redirecting Sample.typed
           Sample.leaving).
  reflexivity.
Defined.

Lemma defaults_toast_reset_and_call_witness :
  exists w1 w2,
    useEffect_reconcile Sample.plain (Sample.arrived 1) = Done tt w1 /\
    log w1 = [ToastSuccess "Created"; FormReset;
              CallOnSuccess "onSuccess" (Some 1)] /\
    formValues w1 = Sample.blank /\
    useEffect_reconcile Sample.plain (Sample.arrived 2) = Done tt w2 /\
    log w2 = [ToastError "Duplicate"; CallOnError "onError" (Some 2)] /\
    formValues w2 = Sample.typed.
Proof.
  destruct (defaults_toast_reset_and_call Sample.plain (Sample.arrived 1) 1
              eq_refl eq_refl eq_refl eq_refl eq_refl eq_refl)
    as (w1 & Hrun1 & Hok1 & _).
  destruct (defaults_toast_reset_and_call Sample.plain (Sample.arrived 2) 2
              eq_refl eq_refl eq_refl eq_refl eq_refl eq_refl)
    as (w2 & Hrun2 & _ & Hko2).
  destruct (Hok1 eq_refl) as (Hlog1 & Hform1).
  destruct (Hko2 eq_refl) as (Hlog2 & Hform2).
  exists w1, w2. repeat split; assumption.
Defined.

Lemma reset_off_keeps_the_form_witness :
  exists w1 toasts,
    useEffect_reconcile Sample.keeping (Sample.arrived 1) = Done tt w1 /\
    formValues w1 = Sample.typed /\
    log w1 = toasts ++ [CallOnSuccess "onSuccess" (Some 1)].
Proof.
  destruct (reset_off_keeps_the_form Sample.keeping (Sample.arrived 1) 1
              eq_refl eq_refl eq_refl (or_introl eq_refl) eq_refl)
    as (w1 & toasts & Hrun & Hform & _ & Hlog).
  exists w1, toasts. repeat split; assumption.
Defined.

Lemma paths_do_not_mix_witness :
  exists w1 evs,
    useEffect_reconcile Sample.plain (Sample.arrived 2) = Done tt w1 /\
    log w1 = evs /\ count is_success_call evs = 0.
Proof.
  destruct (paths_do_not_mix Sample.plain (Sample.arrived 2) 2
              eq_refl eq_refl)
    as (w1 & evs & Hrun & Hlog & _ & Hko).
  exists w1, evs. split; [exact Hrun|]. split; [exact Hlog|].
  exact (Hko eq_refl).
Defined.

Lemma redirect_holds_everything_back_witness :
  exists w1,
    perform_all Sample.redirecting
      [DoRender (Some 2) false; DoRerun; DoRender (Some 3) false]
      Sample.leaving = Done tt w1 /\
    log w1 = [ToastSuccess "Created"; RouterPush false "/list"] /\
    isRedirectingRef w1 = true.
Proof.
  destruct (redirect_holds_everything_back Sample.redirecting
              [DoRender (Some 2) false; DoRerun; DoRender (Some 3) false]
              Sample.leaving eq_refl eq_refl eq_refl)
    as (w1 & Hrun & Hlog & Hred & _).
  exists w1. repeat split; assumption.
Defined.
